(** * drake: [src/unlock_environment.c]

    A shallow embedding of the native helper [unlock_environment] and of
    the two macros it is built from, over an explicit model of the part of
    the R heap the helper touches, followed by the properties of the helper.

    The C code is three macros and a two-statement function:
<<
    #define DRAKE_FRAME_LOCK_MASK (1<<14)
    #define DRAKE_FRAME_IS_LOCKED(e) (ENVFLAGS(e) & DRAKE_FRAME_LOCK_MASK)
    #define DRAKE_UNLOCK_FRAME(e) \
      SET_ENVFLAGS(e, ENVFLAGS(e) & (~ DRAKE_FRAME_LOCK_MASK))

    SEXP unlock_environment(SEXP envir) {
      DRAKE_UNLOCK_FRAME(envir);
      return R_NilValue;
    }
>>
    [ENVFLAGS], [SET_ENVFLAGS], [SEXP] and [R_NilValue] come from the
    headers of the host runtime ([R.h], [Rinternals.h]), which are not part
    of the repository; they are modelled below and marked as such. *)

From Stdlib Require Import ZArith Lia String Ascii.
From stdpp Require Import gmap.

Local Open Scope Z_scope.

(** ** The host runtime's records *)

(** A [SEXP] is a pointer to a record of the host runtime; pointers are
    modelled as addresses. *)
Abbreviation SEXP := N (only parsing).

(** Modelled from the spec: the header word of a host record
    ([struct sxpinfo_struct], absent from the sources).  The only field the
    helper uses is [gp], the 16-bit unsigned bit-field in which environments
    keep their flags; the other fields stand for the "fields invisible to
    this code". *)
Record sxpinfo_struct : Type := mk_sxpinfo {
  type  : Z;   (* 5 bits: kind of record *)
  obj   : Z;   (* 1 bit *)
  named : Z;   (* 2 bits *)
  gp    : Z;   (* 16 bits: the flags field *)
  mark  : Z;   (* 1 bit *)
  debug : Z;   (* 1 bit *)
  trace : Z;   (* 1 bit *)
  spare : Z;   (* 1 bit *)
  gcgen : Z;   (* 1 bit *)
  gccls : Z    (* 3 bits *)
}.

(** Modelled from the spec: an execution-context record (an environment
    [SEXPREC], absent from the sources): the header, the attribute pointer
    and the three pointers of an environment (its bindings, its enclosing
    environment and its hash table). *)
Record SEXPREC : Type := mk_SEXPREC {
  sxpinfo : sxpinfo_struct;
  attrib  : SEXP;
  frame   : SEXP;
  enclos  : SEXP;
  hashtab : SEXP
}.

(** The heap of the host runtime: the live records, by address. *)
Abbreviation heap := (gmap N SEXPREC) (only parsing).

(** A 16-bit unsigned bit-field holds exactly the values below [2^16]. *)
Definition gp_width : Z := 16.

Definition gp_wf (r : SEXPREC) : Prop := 0 <= gp (sxpinfo r) < 2 ^ gp_width.

(** Storing [v] in the [gp] bit-field: every other field of the record is
    kept. *)
Definition set_gp (r : SEXPREC) (v : Z) : SEXPREC :=
  {| sxpinfo :=
       {| type := type (sxpinfo r); obj := obj (sxpinfo r);
          named := named (sxpinfo r); gp := v;
          mark := mark (sxpinfo r); debug := debug (sxpinfo r);
          trace := trace (sxpinfo r); spare := spare (sxpinfo r);
          gcgen := gcgen (sxpinfo r); gccls := gccls (sxpinfo r) |};
     attrib := attrib r; frame := frame r; enclos := enclos r;
     hashtab := hashtab r |}.

(** ** Computations of native code

    A native function runs on the heap and either returns a value and a new
    heap, or leaves through the host's error mechanism, or has no defined
    behaviour (it dereferenced a pointer to no live record). *)
Inductive outcome (A : Type) : Type :=
| Done (a : A) (h : heap)
| Raise (msg : string)
| Undefined.

Arguments Done {A} a h.
Arguments Raise {A} msg.
Arguments Undefined {A}.

Definition M (A : Type) : Type := heap -> outcome A.

#[export] Instance M_ret : MRet M := fun A (a : A) (h : heap) => Done a h.

#[export] Instance M_bind : MBind M :=
  fun A B (f : A -> M B) (m : M A) (h : heap) =>
    match m h with
    | Done a h' => f a h'
    | Raise msg => Raise msg
    | Undefined => Undefined
    end.

(** Modelled from the spec: [ENVFLAGS(x)], absent from the sources, reads
    the flags field of the record [x] points to ("read the record's flags
    field"); the bit-field is promoted to [int]. *)
Definition ENVFLAGS (x : SEXP) : M Z :=
  fun h => match h !! x with
           | Some r => Done (gp (sxpinfo r)) h
           | None => Undefined
           end.

(** Modelled from the spec: [SET_ENVFLAGS(x, v)], absent from the sources,
    writes the [int] [v] into the flags field of the record [x] points to
    ("write the result back into the record's flags field"); the store into
    a 16-bit unsigned bit-field keeps [v] modulo [2^16]. *)
Definition SET_ENVFLAGS (x : SEXP) (v : Z) : M unit :=
  fun h => match h !! x with
           | Some r => Done tt (<[x := set_gp r (v mod 2 ^ gp_width)]> h)
           | None => Undefined
           end.

(** ** The source file *)

(** [#define DRAKE_FRAME_LOCK_MASK (1<<14)] *)
Definition DRAKE_FRAME_LOCK_MASK : Z := Z.shiftl 1 14.

(** [#define DRAKE_FRAME_IS_LOCKED(e) (ENVFLAGS(e) & DRAKE_FRAME_LOCK_MASK)] *)
Definition DRAKE_FRAME_IS_LOCKED (e : SEXP) : M Z :=
  f ← ENVFLAGS e; mret (Z.land f DRAKE_FRAME_LOCK_MASK).

(** [#define DRAKE_UNLOCK_FRAME(e)
       SET_ENVFLAGS(e, ENVFLAGS(e) & (~ DRAKE_FRAME_LOCK_MASK))] *)
Definition DRAKE_UNLOCK_FRAME (e : SEXP) : M unit :=
  f ← ENVFLAGS e; SET_ENVFLAGS e (Z.land f (Z.lnot DRAKE_FRAME_LOCK_MASK)).

Section unlock_environment.

(** The host's empty value, a pointer fixed when the host starts. *)
Variable R_NilValue : SEXP.

(** [SEXP unlock_environment(SEXP envir)] *)
Definition unlock_environment (envir : SEXP) : M SEXP :=
  DRAKE_UNLOCK_FRAME envir;; mret R_NilValue.

End unlock_environment.

(** Shorthand for what [DRAKE_UNLOCK_FRAME] makes [SET_ENVFLAGS] store for
    flags [f]: the [int] value [f & ~DRAKE_FRAME_LOCK_MASK], truncated by
    the bit-field. *)
Abbreviation stored f :=
  (Z.land f (Z.lnot DRAKE_FRAME_LOCK_MASK) mod 2 ^ gp_width) (only parsing).

(** The flags of the record at [x], when there is one. *)
Definition flags_at (h : heap) (x : SEXP) : option Z :=
  (fun r => gp (sxpinfo r)) <$> h !! x.

(** The heap a computation ends with, when it returns. *)
Definition final_heap {A : Type} (o : outcome A) : option heap :=
  match o with
  | Done _ h => Some h
  | _ => None
  end.

(** What a computation returns, when it returns. *)
Definition returned {A : Type} (o : outcome A) : option A :=
  match o with
  | Done a _ => Some a
  | _ => None
  end.

(** The flags of the record at [envir] after [unlock_environment] has run
    on it, when the call returns. *)
Definition flags_after (nil : SEXP) (h : heap) (envir : SEXP) : option Z :=
  h' ← final_heap (unlock_environment nil envir h); flags_at h' envir.

(** Binary literals, most significant digit first, as the scenarios of the
    documentation write flag values. *)
Fixpoint bin_from (acc : Z) (s : string) : Z :=
  match s with
  | EmptyString => acc
  | String c s' => bin_from (2 * acc + (if Ascii.eqb c "1"%char then 1 else 0)) s'
  end.

Definition bin (s : string) : Z := bin_from 0 s.

(** A sample heap: the record at address 1 is an environment with the
    given flags, the record at address 7 is the empty value. *)
Definition sample_env (flags : Z) : SEXPREC :=
  {| sxpinfo := mk_sxpinfo 4 0 2 flags 0 0 0 0 0 0;
     attrib := 7%N; frame := 7%N; enclos := 7%N; hashtab := 7%N |}.

Definition sample_nil : SEXPREC :=
  {| sxpinfo := mk_sxpinfo 0 0 2 0 0 0 0 0 0 0;
     attrib := 7%N; frame := 7%N; enclos := 7%N; hashtab := 7%N |}.

Definition sample_heap (flags : Z) : gmap N SEXPREC :=
  <[1%N := sample_env flags]> {[ 7%N := sample_nil ]}.

(** * Properties *)

Example bin_lock : bin "0100000000000000" = DRAKE_FRAME_LOCK_MASK.
Proof. reflexivity. Qed.

Example sample_run :
  unlock_environment 7%N 1%N (sample_heap 16385) = Done 7%N (sample_heap 1).
Proof. vm_compute. reflexivity. Qed.

Example sample_run_unlocked :
  unlock_environment 7%N 1%N (sample_heap 0) = Done 7%N (sample_heap 0).
Proof. vm_compute. reflexivity. Qed.

Example sample_run_keeps_high_bit :
  flags_after 7%N (sample_heap (bin "1100000000000101")) 1%N
  = Some (bin "1000000000000101").
Proof. vm_compute. reflexivity. Qed.

Example sample_is_locked :
  DRAKE_FRAME_IS_LOCKED 1%N (sample_heap 16385)
  = Done 16384 (sample_heap 16385).
Proof. vm_compute. reflexivity. Qed.

Example sample_run_dangling :
  unlock_environment 7%N 2%N (sample_heap 16385) = Undefined.
Proof. vm_compute. reflexivity. Qed.

(** ** Bit-level facts about the expression of [DRAKE_UNLOCK_FRAME] *)

Section flag_bits.

Implicit Types f i : Z.

Lemma mask_testbit i : 0 <= i ->
  Z.testbit DRAKE_FRAME_LOCK_MASK i = (14 =? i).
Proof.
  intros Hi. unfold DRAKE_FRAME_LOCK_MASK.
  rewrite Z.shiftl_1_l. now apply Z.pow2_bits_eqb.
Qed.

Lemma cleared_testbit f i : 0 <= i ->
  Z.testbit (Z.land f (Z.lnot DRAKE_FRAME_LOCK_MASK)) i
  = Z.testbit f i && negb (14 =? i).
Proof.
  intros Hi.
  rewrite Z.land_spec, Z.lnot_spec, mask_testbit by assumption.
  reflexivity.
Qed.

Lemma stored_testbit f i : 0 <= i ->
  Z.testbit (stored f) i
  = (i <? gp_width) && (Z.testbit f i && negb (14 =? i)).
Proof.
  intros Hi. unfold gp_width.
  destruct (Z.ltb_spec i 16) as [Hlt | Hge].
  - rewrite Z.mod_pow2_bits_low by lia. now rewrite cleared_testbit.
  - rewrite Z.mod_pow2_bits_high by lia. reflexivity.
Qed.

Lemma stored_range f : 0 <= stored f < 2 ^ gp_width.
Proof. apply Z.mod_pos_bound. unfold gp_width. lia. Qed.

Lemma wf_testbit_high f i :
  0 <= f < 2 ^ gp_width -> gp_width <= i -> Z.testbit f i = false.
Proof.
  intros Hf Hi. rewrite <- (Z.mod_small f (2 ^ gp_width)) by assumption.
  apply Z.mod_pow2_bits_high. unfold gp_width in *. lia.
Qed.

(** On a value the bit-field can hold, the truncation changes nothing. *)
Lemma stored_wf f : 0 <= f < 2 ^ gp_width ->
  stored f = Z.land f (Z.lnot DRAKE_FRAME_LOCK_MASK).
Proof.
  intros Hf. apply Z.bits_inj'. intros i Hi.
  rewrite stored_testbit, cleared_testbit by assumption.
  destruct (Z.ltb_spec i gp_width) as [Hlt | Hge]; [reflexivity |].
  now rewrite (wf_testbit_high f i).
Qed.

Lemma stored_clear f : 0 <= f < 2 ^ gp_width ->
  Z.testbit f 14 = false -> stored f = f.
Proof.
  intros Hf H14. apply Z.bits_inj'. intros i Hi.
  rewrite stored_testbit by assumption.
  destruct (Z.ltb_spec i gp_width) as [Hlt | Hge].
  - destruct (Z.eqb_spec 14 i) as [<- | Hne]; cbn [andb negb].
    + now rewrite H14.
    + now rewrite andb_true_r.
  - now rewrite (wf_testbit_high f i).
Qed.

(** The test of [DRAKE_FRAME_IS_LOCKED] is zero exactly when bit 14 is
    clear. *)
Lemma is_locked_zero f :
  Z.land f DRAKE_FRAME_LOCK_MASK = 0 <-> Z.testbit f 14 = false.
Proof.
  split.
  - intros H0. assert (Hb : Z.testbit (Z.land f DRAKE_FRAME_LOCK_MASK) 14
                            = false) by now rewrite H0.
    rewrite Z.land_spec, mask_testbit in Hb by lia.
    now rewrite andb_true_r in Hb.
  - intros H14. apply Z.bits_inj'. intros i Hi.
    rewrite Z.land_spec, mask_testbit, Z.bits_0 by assumption.
    destruct (Z.eqb_spec 14 i) as [<- | Hne].
    + now rewrite H14.
    + apply andb_false_r.
Qed.

Lemma stored_idem f : stored (stored f) = stored f.
Proof.
  apply stored_clear; [apply stored_range |].
  rewrite stored_testbit by lia. rewrite Z.eqb_refl. cbn [negb].
  now rewrite !andb_false_r.
Qed.

End flag_bits.

(** ** What a call does to the heap *)

Section runs.

Variable R_NilValue : SEXP.
Implicit Types (h : heap) (envir : SEXP) (r : SEXPREC).

Lemma unlock_environment_live h envir r :
  h !! envir = Some r ->
  unlock_environment R_NilValue envir h
  = Done R_NilValue
      (<[envir := set_gp r (Z.land (gp (sxpinfo r))
                              (Z.lnot DRAKE_FRAME_LOCK_MASK)
                            mod 2 ^ gp_width)]> h).
Proof.
  intros Hr.
  unfold unlock_environment, DRAKE_UNLOCK_FRAME, mbind, M_bind, mret, M_ret.
  unfold ENVFLAGS, SET_ENVFLAGS. rewrite Hr. cbn. rewrite Hr. reflexivity.
Qed.

Lemma unlock_environment_dangling h envir :
  h !! envir = None ->
  unlock_environment R_NilValue envir h = Undefined.
Proof.
  intros Hr.
  unfold unlock_environment, DRAKE_UNLOCK_FRAME, mbind, M_bind.
  unfold ENVFLAGS. rewrite Hr. reflexivity.
Qed.

Lemma set_gp_same r : set_gp r (gp (sxpinfo r)) = r.
Proof. destruct r as [[] ? ? ? ?]. reflexivity. Qed.

Lemma set_gp_twice r v w : set_gp (set_gp r v) w = set_gp r w.
Proof. reflexivity. Qed.

Lemma flags_after_live h envir r :
  h !! envir = Some r ->
  flags_after R_NilValue h envir
  = Some (Z.land (gp (sxpinfo r)) (Z.lnot DRAKE_FRAME_LOCK_MASK)
          mod 2 ^ gp_width).
Proof.
  intros Hr. unfold flags_after.
  rewrite (unlock_environment_live h envir r Hr). cbn.
  unfold flags_at. now rewrite lookup_insert_eq.
Qed.

Lemma is_locked_run h e r :
  h !! e = Some r ->
  DRAKE_FRAME_IS_LOCKED e h
  = Done (Z.land (gp (sxpinfo r)) DRAKE_FRAME_LOCK_MASK) h.
Proof.
  intros Hr. unfold DRAKE_FRAME_IS_LOCKED, mbind, M_bind, ENVFLAGS.
  rewrite Hr. reflexivity.
Qed.

End runs.

(** * The properties of [unlock_environment] *)

(** C1.  For every execution-context record, after [unlock_environment]
    has been called on it the lock bit (bit 14) of its flags field is
    clear, whether the bit was set or clear before: the call returns, the
    record is still there, bit 14 of its flags is clear and the test
    [DRAKE_FRAME_IS_LOCKED] evaluates to zero on it. *)
Theorem unlock_clears_lock_bit
    (nil : SEXP) (h : heap) (envir : SEXP) (r : SEXPREC) :
  h !! envir = Some r ->
  exists (h' : heap) (r' : SEXPREC),
    unlock_environment nil envir h = Done nil h' /\
    h' !! envir = Some r' /\
    Z.testbit (gp (sxpinfo r')) 14 = false /\
    DRAKE_FRAME_IS_LOCKED envir h' = Done 0 h'.
Proof.
  intros Hr.
  eexists _, _. split; [exact (unlock_environment_live nil h envir r Hr) |].
  split; [apply lookup_insert_eq |].
  assert (H14 : Z.testbit (gp (sxpinfo (set_gp r
                   (Z.land (gp (sxpinfo r)) (Z.lnot DRAKE_FRAME_LOCK_MASK)
                    mod 2 ^ gp_width)))) 14 = false).
  { cbn [set_gp sxpinfo gp]. rewrite stored_testbit by lia.
    rewrite Z.eqb_refl. cbn [negb]. now rewrite !andb_false_r. }
  split; [exact H14 |].
  erewrite is_locked_run by apply lookup_insert_eq.
  apply is_locked_zero in H14. now rewrite H14.
Qed.

Lemma unlock_clears_lock_bit_witness :
  sample_heap 16385 !! 1%N = Some (sample_env 16385) /\
  exists (h' : heap) (r' : SEXPREC),
    unlock_environment 7%N 1%N (sample_heap 16385) = Done 7%N h' /\
    h' !! 1%N = Some r' /\
    Z.testbit (gp (sxpinfo r')) 14 = false /\
    DRAKE_FRAME_IS_LOCKED 1%N h' = Done 0 h'.
Proof.
  split; [reflexivity |].
  apply (unlock_clears_lock_bit 7%N (sample_heap 16385) 1%N
           (sample_env 16385)).
  reflexivity.
Defined.

(** C2.  For every execution-context record, every bit of the flags field
    other than the lock bit (bit 14) has the same value after the call as
    before it.  The sixteen bits of the field are kept for any stored
    value; for a value the 16-bit field can hold, every bit position of
    the flags other than 14 reads the same before and after. *)
Theorem unlock_preserves_other_bits
    (nil : SEXP) (h : heap) (envir : SEXP) (r : SEXPREC) :
  h !! envir = Some r ->
  exists (h' : heap) (r' : SEXPREC),
    unlock_environment nil envir h = Done nil h' /\
    h' !! envir = Some r' /\
    (forall i : Z, 0 <= i < gp_width -> i <> 14 ->
       Z.testbit (gp (sxpinfo r')) i = Z.testbit (gp (sxpinfo r)) i) /\
    (gp_wf r -> forall i : Z, i <> 14 ->
       Z.testbit (gp (sxpinfo r')) i = Z.testbit (gp (sxpinfo r)) i).
Proof.
  intros Hr.
  eexists _, _. split; [exact (unlock_environment_live nil h envir r Hr) |].
  split; [apply lookup_insert_eq |].
  cbn [set_gp sxpinfo gp]. split.
  - intros i [Hlo Hhi] Hne. rewrite stored_testbit by assumption.
    apply Z.ltb_lt in Hhi. rewrite Hhi.
    destruct (Z.eqb_spec 14 i) as [Heq | _]; [congruence |].
    cbn [andb negb]. apply andb_true_r.
  - intros Hwf i Hne. rewrite stored_wf by exact Hwf.
    destruct (Z.neg_nonneg_cases i) as [Hneg | Hpos].
    + now rewrite !Z.testbit_neg_r.
    + rewrite cleared_testbit by assumption.
      destruct (Z.eqb_spec 14 i) as [Heq | _]; [congruence |].
      cbn [negb]. apply andb_true_r.
Qed.

Lemma unlock_preserves_other_bits_witness :
  (sample_heap 16385 !! 1%N = Some (sample_env 16385) /\
   gp_wf (sample_env 16385)) /\
  exists (h' : heap) (r' : SEXPREC),
    unlock_environment 7%N 1%N (sample_heap 16385) = Done 7%N h' /\
    h' !! 1%N = Some r' /\
    (forall i : Z, i <> 14 ->
       Z.testbit (gp (sxpinfo r')) i
       = Z.testbit (gp (sxpinfo (sample_env 16385))) i).
Proof.
  assert (Hwf : gp_wf (sample_env 16385))
    by (unfold gp_wf, gp_width; cbn; lia).
  split; [split; [reflexivity | exact Hwf] |].
  destruct (unlock_preserves_other_bits 7%N (sample_heap 16385) 1%N
              (sample_env 16385))
    as (h' & r' & Hrun & Hr' & _ & Hall); [reflexivity |].
  exists h', r'. split; [exact Hrun |]. split; [exact Hr' |].
  exact (Hall Hwf).
Defined.

(** C3.  For every execution-context record, [unlock_environment] computes
    the new flags as the old flags bitwise-ANDed with the bitwise
    complement of the mask [1 << 14], and writes that value back into the
    flags field of the record: the heap it returns is the old heap with the
    record's flags replaced by that value. *)
Theorem unlock_writes_and_not_mask
    (nil : SEXP) (h : heap) (envir : SEXP) (r : SEXPREC) :
  h !! envir = Some r ->
  gp_wf r ->
  unlock_environment nil envir h
  = Done nil
      (<[envir := set_gp r (Z.land (gp (sxpinfo r))
                                   (Z.lnot (Z.shiftl 1 14)))]> h)
  /\ flags_after nil h envir
     = Some (Z.land (gp (sxpinfo r)) (Z.lnot (Z.shiftl 1 14))).
Proof.
  intros Hr Hwf. fold DRAKE_FRAME_LOCK_MASK. split.
  - rewrite (unlock_environment_live nil h envir r Hr).
    now rewrite stored_wf by exact Hwf.
  - rewrite (flags_after_live nil h envir r Hr).
    now rewrite stored_wf by exact Hwf.
Qed.

Lemma unlock_writes_and_not_mask_witness :
  (sample_heap 16385 !! 1%N = Some (sample_env 16385) /\
   gp_wf (sample_env 16385)) /\
  unlock_environment 7%N 1%N (sample_heap 16385)
  = Done 7%N
      (<[1%N := set_gp (sample_env 16385)
                  (Z.land (gp (sxpinfo (sample_env 16385)))
                          (Z.lnot (Z.shiftl 1 14)))]> (sample_heap 16385))
  /\ flags_after 7%N (sample_heap 16385) 1%N
     = Some (Z.land (gp (sxpinfo (sample_env 16385)))
                    (Z.lnot (Z.shiftl 1 14))).
Proof.
  assert (Hwf : gp_wf (sample_env 16385)) by (unfold gp_wf, gp_width; cbn; lia).
  split; [split; [reflexivity | exact Hwf] |].
  apply (unlock_writes_and_not_mask 7%N (sample_heap 16385) 1%N
           (sample_env 16385)); [reflexivity | exact Hwf].
Defined.

(** C4.  For every execution-context record, [unlock_environment] returns
    the host's empty value [R_NilValue], whatever the flags of the record
    were. *)
Theorem unlock_returns_nil
    (nil : SEXP) (h : heap) (envir : SEXP) (r : SEXPREC) :
  h !! envir = Some r ->
  returned (unlock_environment nil envir h) = Some nil.
Proof.
  intros Hr. now rewrite (unlock_environment_live nil h envir r Hr).
Qed.

Lemma unlock_returns_nil_witness :
  sample_heap 16385 !! 1%N = Some (sample_env 16385) /\
  returned (unlock_environment 7%N 1%N (sample_heap 16385)) = Some 7%N.
Proof.
  split; [reflexivity |].
  apply (unlock_returns_nil 7%N (sample_heap 16385) 1%N (sample_env 16385)).
  reflexivity.
Defined.

(** C5.  Idempotence: for every execution-context record, calling
    [unlock_environment] twice in succession leaves the flags field equal
    to the value it has after one call.  The second call returns the heap
    the first one left, unchanged, so the two calls in sequence are the
    same computation as one call. *)
Theorem unlock_idempotent
    (nil : SEXP) (h : heap) (envir : SEXP) (r : SEXPREC) :
  h !! envir = Some r ->
  exists h1 : heap,
    unlock_environment nil envir h = Done nil h1 /\
    unlock_environment nil envir h1 = Done nil h1 /\
    flags_after nil h1 envir = flags_at h1 envir /\
    ((unlock_environment nil envir;; unlock_environment nil envir) : M SEXP) h
    = unlock_environment nil envir h.
Proof.
  intros Hr.
  pose proof (unlock_environment_live nil h envir r Hr) as Hrun.
  set (h1 := <[envir := _]> h) in Hrun.
  assert (Hr1 : h1 !! envir = Some (set_gp r
                  (Z.land (gp (sxpinfo r)) (Z.lnot DRAKE_FRAME_LOCK_MASK)
                   mod 2 ^ gp_width))) by apply lookup_insert_eq.
  assert (Hrun1 : unlock_environment nil envir h1 = Done nil h1).
  { rewrite (unlock_environment_live nil h1 envir _ Hr1).
    cbn [set_gp sxpinfo gp]. rewrite stored_idem. f_equal.
    now apply insert_id. }
  exists h1. split; [exact Hrun |]. split; [exact Hrun1 |]. split.
  - unfold flags_after. now rewrite Hrun1.
  - unfold mbind at 1, M_bind at 1. rewrite Hrun. exact Hrun1.
Qed.

Lemma unlock_idempotent_witness :
  sample_heap 16385 !! 1%N = Some (sample_env 16385) /\
  exists h1 : heap,
    unlock_environment 7%N 1%N (sample_heap 16385) = Done 7%N h1 /\
    unlock_environment 7%N 1%N h1 = Done 7%N h1 /\
    flags_after 7%N h1 1%N = flags_at h1 1%N /\
    ((unlock_environment 7%N 1%N;; unlock_environment 7%N 1%N) : M SEXP)
      (sample_heap 16385)
    = unlock_environment 7%N 1%N (sample_heap 16385).
Proof.
  split; [reflexivity |].
  apply (unlock_idempotent 7%N (sample_heap 16385) 1%N (sample_env 16385)).
  reflexivity.
Defined.

(** C6.  For every execution-context record whose lock bit is already
    clear, calling [unlock_environment] leaves the flags field entirely
    unchanged (the call returns the heap it was given); in particular flags
    equal to 0 remain 0. *)
Theorem unlock_unlocked_unchanged
    (nil : SEXP) (h : heap) (envir : SEXP) (r : SEXPREC) :
  h !! envir = Some r ->
  gp_wf r ->
  Z.testbit (gp (sxpinfo r)) 14 = false ->
  unlock_environment nil envir h = Done nil h /\
  flags_after nil h envir = Some (gp (sxpinfo r)) /\
  (gp (sxpinfo r) = 0 -> flags_after nil h envir = Some 0).
Proof.
  intros Hr Hwf H14.
  assert (Hrun : unlock_environment nil envir h = Done nil h).
  { rewrite (unlock_environment_live nil h envir r Hr).
    rewrite stored_clear by assumption. rewrite set_gp_same.
    f_equal. now apply insert_id. }
  assert (Hfl : flags_after nil h envir = Some (gp (sxpinfo r))).
  { unfold flags_after. rewrite Hrun. cbn. unfold flags_at. now rewrite Hr. }
  split; [exact Hrun |]. split; [exact Hfl |].
  intros H0. now rewrite Hfl, H0.
Qed.

Lemma unlock_unlocked_unchanged_witness :
  (sample_heap 0 !! 1%N = Some (sample_env 0) /\
   gp_wf (sample_env 0) /\
   Z.testbit (gp (sxpinfo (sample_env 0))) 14 = false) /\
  unlock_environment 7%N 1%N (sample_heap 0) = Done 7%N (sample_heap 0) /\
  flags_after 7%N (sample_heap 0) 1%N = Some 0.
Proof.
  assert (Hwf : gp_wf (sample_env 0)) by (unfold gp_wf, gp_width; cbn; lia).
  split; [split; [reflexivity | split; [exact Hwf | reflexivity]] |].
  destruct (unlock_unlocked_unchanged 7%N (sample_heap 0) 1%N (sample_env 0))
    as (Hrun & _ & H0); [reflexivity | exact Hwf | reflexivity |].
  split; [exact Hrun | apply H0; reflexivity].
Defined.

(** C7.  Concrete values: a record whose flags field equals
    0b0100000000000000 (only the lock bit set) has flags
    0b0000000000000000 after the call, and a record whose flags field
    equals 0b0100000000000001 has flags 0b0000000000000001 after the call.
    The record's other fields, its address and the rest of the heap are
    arbitrary. *)
Theorem unlock_scenarios
    (nil : SEXP) (h : heap) (envir : SEXP) (r : SEXPREC) :
  flags_after nil (<[envir := set_gp r (bin "0100000000000000")]> h) envir
  = Some (bin "0000000000000000")
  /\
  flags_after nil (<[envir := set_gp r (bin "0100000000000001")]> h) envir
  = Some (bin "0000000000000001").
Proof.
  split.
  - erewrite flags_after_live by apply lookup_insert_eq. reflexivity.
  - erewrite flags_after_live by apply lookup_insert_eq. reflexivity.
Qed.

(** C8.  For every valid record reference, [unlock_environment] completes
    successfully: it returns (with the empty value and a heap), it does not
    leave through the host's error mechanism, and its behaviour is
    defined. *)
Theorem unlock_always_succeeds
    (nil : SEXP) (h : heap) (envir : SEXP) (r : SEXPREC) :
  h !! envir = Some r ->
  (exists h' : heap, unlock_environment nil envir h = Done nil h') /\
  (forall msg : string, unlock_environment nil envir h <> Raise msg) /\
  unlock_environment nil envir h <> Undefined.
Proof.
  intros Hr. rewrite (unlock_environment_live nil h envir r Hr).
  split; [eexists; reflexivity |]. split; [intros msg |]; discriminate.
Qed.

Lemma unlock_always_succeeds_witness :
  sample_heap 16385 !! 1%N = Some (sample_env 16385) /\
  (exists h' : heap,
     unlock_environment 7%N 1%N (sample_heap 16385) = Done 7%N h') /\
  (forall msg : string,
     unlock_environment 7%N 1%N (sample_heap 16385) <> Raise msg) /\
  unlock_environment 7%N 1%N (sample_heap 16385) <> Undefined.
Proof.
  split; [reflexivity |].
  apply (unlock_always_succeeds 7%N (sample_heap 16385) 1%N
           (sample_env 16385)).
  reflexivity.
Defined.

(** C9.  [unlock_environment] mutates only the flags field of the supplied
    record.  Written: the record keeps every other field (the rest of its
    header, its attributes, its bindings, its enclosing environment and its
    hash table), every other record of the heap is as before, and no record
    is added or removed.  Read: what the call returns and the flags it
    leaves are the same on any heap whose record at that address has the
    same flags, whatever its other fields and the other records are. *)
Theorem unlock_touches_only_flags
    (nil : SEXP) (h : heap) (envir : SEXP) (r : SEXPREC) :
  h !! envir = Some r ->
  exists (h' : heap) (r' : SEXPREC),
    unlock_environment nil envir h = Done nil h' /\
    h' !! envir = Some r' /\
    (type (sxpinfo r') = type (sxpinfo r) /\
     obj (sxpinfo r') = obj (sxpinfo r) /\
     named (sxpinfo r') = named (sxpinfo r) /\
     mark (sxpinfo r') = mark (sxpinfo r) /\
     debug (sxpinfo r') = debug (sxpinfo r) /\
     trace (sxpinfo r') = trace (sxpinfo r) /\
     spare (sxpinfo r') = spare (sxpinfo r) /\
     gcgen (sxpinfo r') = gcgen (sxpinfo r) /\
     gccls (sxpinfo r') = gccls (sxpinfo r)) /\
    (attrib r' = attrib r /\ frame r' = frame r /\
     enclos r' = enclos r /\ hashtab r' = hashtab r) /\
    (forall x : SEXP, x <> envir -> h' !! x = h !! x) /\
    dom h' = dom h /\
    (forall (h2 : heap) (r2 : SEXPREC),
       h2 !! envir = Some r2 ->
       gp (sxpinfo r2) = gp (sxpinfo r) ->
       returned (unlock_environment nil envir h2)
       = returned (unlock_environment nil envir h) /\
       flags_after nil h2 envir = flags_after nil h envir).
Proof.
  intros Hr.
  eexists _, _. split; [exact (unlock_environment_live nil h envir r Hr) |].
  split; [apply lookup_insert_eq |].
  split; [cbn; repeat split |]. split; [cbn; repeat split |].
  split; [| split].
  - intros x Hx. now apply lookup_insert_ne.
  - apply set_eq. intros x. rewrite !elem_of_dom.
    destruct (decide (envir = x)) as [<- | Hne].
    + rewrite lookup_insert_eq, Hr. split; eauto.
    + now rewrite lookup_insert_ne.
  - intros h2 r2 Hr2 Hgp. split.
    + rewrite (unlock_environment_live nil h2 envir r2 Hr2).
      now rewrite (unlock_environment_live nil h envir r Hr).
    + rewrite (flags_after_live nil h2 envir r2 Hr2).
      rewrite (flags_after_live nil h envir r Hr). now rewrite Hgp.
Qed.

Lemma unlock_touches_only_flags_witness :
  sample_heap 16385 !! 1%N = Some (sample_env 16385) /\
  exists (h' : heap) (r' : SEXPREC),
    unlock_environment 7%N 1%N (sample_heap 16385) = Done 7%N h' /\
    h' !! 1%N = Some r' /\
    frame r' = 7%N /\
    h' !! 7%N = Some sample_nil.
Proof.
  split; [reflexivity |].
  destruct (unlock_touches_only_flags 7%N (sample_heap 16385) 1%N
              (sample_env 16385))
    as (h' & r' & Hrun & Hr' & _ & (_ & Hframe & _) & Hother & _);
    [reflexivity |].
  exists h', r'. split; [exact Hrun |]. split; [exact Hr' |].
  split; [exact Hframe |].
  rewrite (Hother 7%N); [reflexivity | discriminate].
Defined.

(** C10.  Determinism: the resulting flags and the return value of
    [unlock_environment] are a function of the record's prior flags only.
    Two calls on records whose flags fields are equal, at any two addresses
    of any two heaps, both return the empty value and leave equal flags. *)
Theorem unlock_deterministic
    (nil : SEXP) (h1 h2 : heap) (envir1 envir2 : SEXP) (r1 r2 : SEXPREC) :
  h1 !! envir1 = Some r1 ->
  h2 !! envir2 = Some r2 ->
  gp (sxpinfo r1) = gp (sxpinfo r2) ->
  returned (unlock_environment nil envir1 h1) = Some nil /\
  returned (unlock_environment nil envir2 h2) = Some nil /\
  is_Some (flags_after nil h1 envir1) /\
  flags_after nil h1 envir1 = flags_after nil h2 envir2.
Proof.
  intros Hr1 Hr2 Hgp.
  rewrite (unlock_environment_live nil h1 envir1 r1 Hr1).
  rewrite (unlock_environment_live nil h2 envir2 r2 Hr2).
  rewrite (flags_after_live nil h1 envir1 r1 Hr1).
  rewrite (flags_after_live nil h2 envir2 r2 Hr2).
  rewrite Hgp. repeat split. eexists. reflexivity.
Qed.

Lemma unlock_deterministic_witness :
  (sample_heap 16385 !! 1%N = Some (sample_env 16385) /\
   (<[3%N := set_gp sample_nil 16385]> (sample_heap 2)) !! 3%N
   = Some (set_gp sample_nil 16385) /\
   gp (sxpinfo (sample_env 16385)) = gp (sxpinfo (set_gp sample_nil 16385)))
  /\
  returned (unlock_environment 7%N 1%N (sample_heap 16385)) = Some 7%N /\
  returned (unlock_environment 7%N 3%N
              (<[3%N := set_gp sample_nil 16385]> (sample_heap 2)))
  = Some 7%N /\
  is_Some (flags_after 7%N (sample_heap 16385) 1%N) /\
  flags_after 7%N (sample_heap 16385) 1%N
  = flags_after 7%N (<[3%N := set_gp sample_nil 16385]> (sample_heap 2)) 3%N.
Proof.
  split; [repeat split |].
  apply (unlock_deterministic 7%N (sample_heap 16385)
           (<[3%N := set_gp sample_nil 16385]> (sample_heap 2)) 1%N 3%N
           (sample_env 16385) (set_gp sample_nil 16385)); reflexivity.
Defined.

(** * Further properties of the macros and of their composition *)

(** The value of the test [f & DRAKE_FRAME_LOCK_MASK] is the mask itself
    when bit 14 of [f] is set, and zero otherwise. *)
Lemma land_mask_cases (f : Z) :
  Z.land f DRAKE_FRAME_LOCK_MASK
  = if Z.testbit f 14 then DRAKE_FRAME_LOCK_MASK else 0.
Proof.
  destruct (Z.testbit f 14) eqn:H14.
  - apply Z.bits_inj'. intros i Hi.
    rewrite Z.land_spec, mask_testbit by assumption.
    destruct (Z.eqb_spec 14 i) as [<- | Hne].
    + now rewrite H14.
    + apply andb_false_r.
  - now apply is_locked_zero.
Qed.

(** Clearing the bits of the mask is subtracting the value of the test: no
    borrow crosses bit 14. *)
Lemma cleared_sub (f : Z) :
  Z.land f (Z.lnot DRAKE_FRAME_LOCK_MASK)
  = f - Z.land f DRAKE_FRAME_LOCK_MASK.
Proof.
  rewrite Z.sub_nocarry_ldiff.
  - apply Z.bits_inj'. intros i Hi.
    rewrite Z.ldiff_spec, !Z.land_spec, Z.lnot_spec by assumption.
    destruct (Z.testbit f i), (Z.testbit DRAKE_FRAME_LOCK_MASK i);
      reflexivity.
  - apply Z.bits_inj'. intros i Hi.
    rewrite Z.ldiff_spec, Z.land_spec, Z.bits_0.
    destruct (Z.testbit f i), (Z.testbit DRAKE_FRAME_LOCK_MASK i);
      reflexivity.
Qed.

(** X1.  [DRAKE_FRAME_IS_LOCKED] on a live record is a pure test: it leaves
    the heap as it is, its value is either 0 or the mask 16384 and never
    anything else, and it is non-zero (true, for C) exactly when bit 14 of
    the record's flags is set. *)
Theorem is_locked_tests_bit14 (h : heap) (e : SEXP) (r : SEXPREC) :
  h !! e = Some r ->
  exists v : Z,
    DRAKE_FRAME_IS_LOCKED e h = Done v h /\
    (v = 0 \/ v = 16384) /\
    (v <> 0 <-> Z.testbit (gp (sxpinfo r)) 14 = true).
Proof.
  intros Hr. eexists. split; [exact (is_locked_run h e r Hr) |].
  rewrite land_mask_cases.
  destruct (Z.testbit (gp (sxpinfo r)) 14).
  - split; [right; reflexivity |]. split; [reflexivity | discriminate].
  - split; [left; reflexivity |]. split; [congruence | discriminate].
Qed.

Lemma is_locked_tests_bit14_witness :
  sample_heap 49153 !! 1%N = Some (sample_env 49153) /\
  exists v : Z,
    DRAKE_FRAME_IS_LOCKED 1%N (sample_heap 49153)
    = Done v (sample_heap 49153) /\
    (v = 0 \/ v = 16384) /\
    (v <> 0 <-> Z.testbit (gp (sxpinfo (sample_env 49153))) 14 = true).
Proof.
  split; [reflexivity |].
  apply (is_locked_tests_bit14 (sample_heap 49153) 1%N (sample_env 49153)).
  reflexivity.
Defined.

(** X2.  On a live record whose flags are a 16-bit value,
    [unlock_environment] returns the heap it was given exactly when the
    record was not locked, that is when [DRAKE_FRAME_IS_LOCKED] evaluates
    to zero on it: a locked record is really changed, an unlocked one is
    not. *)
Theorem unlock_noop_iff_not_locked
    (nil : SEXP) (h : heap) (envir : SEXP) (r : SEXPREC) :
  h !! envir = Some r ->
  gp_wf r ->
  unlock_environment nil envir h = Done nil h
  <-> DRAKE_FRAME_IS_LOCKED envir h = Done 0 h.
Proof.
  intros Hr Hwf.
  rewrite (unlock_environment_live nil h envir r Hr).
  rewrite (is_locked_run h envir r Hr). split.
  - intros Hrun. inversion Hrun as [Hh].
    assert (Hl : (<[envir := set_gp r (stored (gp (sxpinfo r)))]> h)
                   !! envir = Some r) by now rewrite Hh.
    rewrite lookup_insert_eq in Hl.
    assert (Hgp : gp (sxpinfo r) = stored (gp (sxpinfo r))).
    { injection Hl as Hl. now rewrite <- Hl at 1. }
    assert (H14 : Z.testbit (gp (sxpinfo r)) 14 = false).
    { rewrite Hgp. rewrite stored_testbit by lia.
      rewrite Z.eqb_refl. cbn [negb]. now rewrite !andb_false_r. }
    apply is_locked_zero in H14. now rewrite H14.
  - intros Htest. inversion Htest as [H0].
    apply is_locked_zero in H0.
    rewrite stored_clear by assumption. rewrite set_gp_same.
    f_equal. now apply insert_id.
Qed.

Lemma unlock_noop_iff_not_locked_witness :
  (sample_heap 16385 !! 1%N = Some (sample_env 16385) /\
   gp_wf (sample_env 16385)) /\
  (unlock_environment 7%N 1%N (sample_heap 16385)
   = Done 7%N (sample_heap 16385)
   <-> DRAKE_FRAME_IS_LOCKED 1%N (sample_heap 16385)
       = Done 0 (sample_heap 16385)).
Proof.
  assert (Hwf : gp_wf (sample_env 16385))
    by (unfold gp_wf, gp_width; cbn; lia).
  split; [split; [reflexivity | exact Hwf] |].
  apply (unlock_noop_iff_not_locked 7%N (sample_heap 16385) 1%N
           (sample_env 16385)); [reflexivity | exact Hwf].
Defined.

(** X3.  On a live record whose flags are a 16-bit value, the flags
    [unlock_environment] leaves are the old flags minus the value of the
    test [DRAKE_FRAME_IS_LOCKED]: 16384 is taken off a locked record and
    nothing off an unlocked one.  The new flags are never negative and
    never above the old ones, so the store into the bit-field does not
    wrap around. *)
Theorem unlock_subtracts_lock_value
    (nil : SEXP) (h : heap) (envir : SEXP) (r : SEXPREC) :
  h !! envir = Some r ->
  gp_wf r ->
  exists v : Z,
    DRAKE_FRAME_IS_LOCKED envir h = Done v h /\
    flags_after nil h envir = Some (gp (sxpinfo r) - v) /\
    0 <= gp (sxpinfo r) - v <= gp (sxpinfo r).
Proof.
  intros Hr Hwf. eexists. split; [exact (is_locked_run h envir r Hr) |].
  rewrite (flags_after_live nil h envir r Hr).
  rewrite stored_wf by exact Hwf. rewrite cleared_sub.
  split; [reflexivity |].
  pose proof (stored_range (gp (sxpinfo r))) as Hrange.
  rewrite stored_wf, cleared_sub in Hrange by exact Hwf.
  split; [lia |].
  rewrite land_mask_cases.
  destruct (Z.testbit (gp (sxpinfo r)) 14);
    [change DRAKE_FRAME_LOCK_MASK with 16384 |]; lia.
Qed.

Lemma unlock_subtracts_lock_value_witness :
  (sample_heap 49153 !! 1%N = Some (sample_env 49153) /\
   gp_wf (sample_env 49153)) /\
  exists v : Z,
    DRAKE_FRAME_IS_LOCKED 1%N (sample_heap 49153)
    = Done v (sample_heap 49153) /\
    flags_after 7%N (sample_heap 49153) 1%N = Some (49153 - v) /\
    0 <= 49153 - v <= 49153.
Proof.
  assert (Hwf : gp_wf (sample_env 49153))
    by (unfold gp_wf, gp_width; cbn; lia).
  split; [split; [reflexivity | exact Hwf] |].
  apply (unlock_subtracts_lock_value 7%N (sample_heap 49153) 1%N
           (sample_env 49153)); [reflexivity | exact Hwf].
Defined.

(** X4.  Unlocking two environments of one heap gives the same heap in
    either order: both sequences of calls return, with the empty value and
    with equal heaps, whether the two references are different or the same
    record. *)
Theorem unlock_commutes
    (nil : SEXP) (h : heap) (envir1 envir2 : SEXP) (r1 r2 : SEXPREC) :
  h !! envir1 = Some r1 ->
  h !! envir2 = Some r2 ->
  exists h' : heap,
    ((unlock_environment nil envir1;; unlock_environment nil envir2)
       : M SEXP) h = Done nil h' /\
    ((unlock_environment nil envir2;; unlock_environment nil envir1)
       : M SEXP) h = Done nil h'.
Proof.
  intros Hr1 Hr2.
  destruct (decide (envir1 = envir2)) as [-> | Hne].
  - eexists. unfold mbind, M_bind.
    rewrite (unlock_environment_live nil h envir2 r2 Hr2).
    erewrite (unlock_environment_live nil _ envir2)
      by apply lookup_insert_eq.
    split; reflexivity.
  - eexists. unfold mbind, M_bind.
    rewrite (unlock_environment_live nil h envir1 r1 Hr1).
    rewrite (unlock_environment_live nil h envir2 r2 Hr2).
    erewrite (unlock_environment_live nil _ envir2 r2)
      by (rewrite lookup_insert_ne by exact Hne; exact Hr2).
    erewrite (unlock_environment_live nil _ envir1 r1)
      by (rewrite lookup_insert_ne by (intros Heq; now apply Hne);
          exact Hr1).
    split; [reflexivity |]. f_equal.
    apply insert_insert_ne. exact Hne.
Qed.

Lemma unlock_commutes_witness :
  (sample_heap 16385 !! 1%N = Some (sample_env 16385) /\
   sample_heap 16385 !! 7%N = Some sample_nil) /\
  exists h' : heap,
    ((unlock_environment 7%N 1%N;; unlock_environment 7%N 7%N) : M SEXP)
      (sample_heap 16385) = Done 7%N h' /\
    ((unlock_environment 7%N 7%N;; unlock_environment 7%N 1%N) : M SEXP)
      (sample_heap 16385) = Done 7%N h'.
Proof.
  split; [split; reflexivity |].
  apply (unlock_commutes 7%N (sample_heap 16385) 1%N 7%N
           (sample_env 16385) sample_nil); reflexivity.
Defined.

(** X5.  Unlocking one environment does not unlock or lock any other: for
    every reference other than the one passed, [DRAKE_FRAME_IS_LOCKED]
    gives the same value on the heap after the call as on the heap before
    it (and is undefined after exactly when it was before). *)
Theorem unlock_leaves_other_locks
    (nil : SEXP) (h : heap) (envir other : SEXP) (r : SEXPREC) :
  h !! envir = Some r ->
  other <> envir ->
  exists h' : heap,
    unlock_environment nil envir h = Done nil h' /\
    returned (DRAKE_FRAME_IS_LOCKED other h')
    = returned (DRAKE_FRAME_IS_LOCKED other h).
Proof.
  intros Hr Hne.
  eexists. split; [exact (unlock_environment_live nil h envir r Hr) |].
  unfold DRAKE_FRAME_IS_LOCKED, mbind, M_bind, ENVFLAGS.
  rewrite lookup_insert_ne by (intros Heq; now apply Hne).
  destruct (h !! other); reflexivity.
Qed.

Lemma unlock_leaves_other_locks_witness :
  (<[3%N := sample_env 16384]> (sample_heap 16385) !! 1%N
   = Some (sample_env 16385) /\ 3%N <> 1%N) /\
  exists h' : heap,
    unlock_environment 7%N 1%N (<[3%N := sample_env 16384]>
                                  (sample_heap 16385)) = Done 7%N h' /\
    returned (DRAKE_FRAME_IS_LOCKED 3%N h') = Some 16384.
Proof.
  split; [split; [reflexivity | discriminate] |].
  destruct (unlock_leaves_other_locks 7%N
              (<[3%N := sample_env 16384]> (sample_heap 16385))
              1%N 3%N (sample_env 16385))
    as (h' & Hrun & Hsame); [reflexivity | discriminate |].
  exists h'. split; [exact Hrun |]. rewrite Hsame. reflexivity.
Defined.
